(** * The TNB time-of-use price series of [TNB_rate.py]

    A shallow embedding of [generate_tnb_tou_data] and of the parts of the
    dataframe library it calls, followed by the properties of the generated
    table.

    Timestamps and durations are the library's own representation: a signed
    64-bit count of nanoseconds (since 1970-01-01 00:00:00 for a timestamp).
    Arithmetic that leaves that range raises, as it does in the library.
    Every fallible step returns a [result], an exception being a [Raise]. *)

From Stdlib Require Import ZArith String Ascii List Lia PrimFloat.
From stdpp Require Import base option list list_numbers.

Local Open Scope Z_scope.

(** ** Exceptions *)

Inductive exn : Type :=
  | ValueError          (* unparseable date, columns of unequal length *)
  | OutOfBounds         (* a timestamp or duration outside the 64-bit range *)
  | ZeroDivisionError.  (* a frequency of zero minutes *)

Inductive result (A : Type) : Type :=
  | Ok (a : A)
  | Raise (e : exn).
Arguments Ok {A} a.
Arguments Raise {A} e.

#[global] Instance result_ret : MRet result := fun _ a => Ok a.
#[global] Instance result_bind : MBind result := fun _ _ f m =>
  match m with
  | Ok a => f a
  | Raise e => Raise e
  end.

Definition raises {A : Type} (r : result A) : Prop := exists e, r = Raise e.

(** ** Timestamps and durations *)

Abbreviation Timestamp := Z (only parsing).
Abbreviation Timedelta := Z (only parsing).

Definition NS_PER_SECOND : Z := 1000000000.
Definition NS_PER_MINUTE : Z := 60 * NS_PER_SECOND.
Definition NS_PER_HOUR : Z := 60 * NS_PER_MINUTE.
Definition NS_PER_DAY : Z := 24 * NS_PER_HOUR.

(** The largest value of the 64-bit representation; the smallest is its
    opposite, the remaining bit pattern being the not-a-time marker. These
    are the limits at nanosecond resolution, the narrowest the library
    keeps: the theorems use staying within them as a sufficient condition
    for a table to be returned. *)
Definition I64_MAX : Z := 2 ^ 63 - 1.

Definition in_bounds (v : Z) : bool := (- I64_MAX <=? v) && (v <=? I64_MAX).

Definition checked (v : Z) : result Z :=
  if in_bounds v then Ok v else Raise OutOfBounds.

(** [pd.Timedelta(days=n)] and [pd.Timedelta(minutes=m)]. *)
Definition Timedelta_days (n : Z) : result Timedelta := checked (n * NS_PER_DAY).
Definition Timedelta_minutes (m : Z) : result Timedelta := checked (m * NS_PER_MINUTE).

(** [Timestamp + Timedelta] and [Timestamp - Timedelta]. *)
Definition timestamp_add (t : Timestamp) (d : Timedelta) : result Timestamp := checked (t + d).
Definition timestamp_sub (t : Timestamp) (d : Timedelta) : result Timestamp := checked (t - d).

(** [Timestamp.hour] and [Timestamp.dayofweek] (Monday is 0, Sunday is 6;
    day 0 of the epoch was a Thursday). Division rounds down, so both are
    right before 1970 as well. *)
Definition hour (t : Timestamp) : Z := (t `div` NS_PER_HOUR) `mod` 24.
Definition dayofweek (t : Timestamp) : Z := (t `div` NS_PER_DAY + 3) `mod` 7.

(** ** The calendar and [pd.to_datetime]

    The model reads the spelling the docstring gives,
    [YYYY-MM-DD HH:MM:SS], the same with a [T] between date and time, and
    the date alone (midnight). The library reads more spellings than these;
    the model answers [ValueError] for them, which says nothing of the
    library, so the theorems take a start date that parses and conclude
    nothing from a refusal. *)

Definition is_leap (y : Z) : bool :=
  ((y `mod` 4 =? 0) && negb (y `mod` 100 =? 0)) || (y `mod` 400 =? 0).

Definition days_in_month (y m : Z) : Z :=
  if m =? 2 then (if is_leap y then 29 else 28)
  else if (m =? 4) || (m =? 6) || (m =? 9) || (m =? 11) then 30
  else 31.

(** Days from 1970-01-01 to the given day of the proleptic Gregorian
    calendar, counting years from the first of March. *)
Definition days_from_civil (y m d : Z) : Z :=
  let y' := if m <=? 2 then y - 1 else y in
  let era := y' `div` 400 in
  let yoe := y' - era * 400 in
  let mp := if m <=? 2 then m + 9 else m - 3 in
  let doy := (153 * mp + 2) `div` 5 + d - 1 in
  let doe := yoe * 365 + yoe `div` 4 - yoe `div` 100 + doy in
  era * 146097 + doe - 719468.

Record civil : Type := Civil {
  c_year : Z; c_month : Z; c_day : Z;
  c_hour : Z; c_minute : Z; c_second : Z
}.

Definition civil_valid (c : civil) : bool :=
  (1 <=? c_month c) && (c_month c <=? 12) &&
  (1 <=? c_day c) && (c_day c <=? days_in_month (c_year c) (c_month c)) &&
  (c_hour c <=? 23) && (c_minute c <=? 59) && (c_second c <=? 59).

Definition civil_to_ns (c : civil) : Z :=
  (((days_from_civil (c_year c) (c_month c) (c_day c) * 24 + c_hour c) * 60
    + c_minute c) * 60 + c_second c) * NS_PER_SECOND.

Definition digit_of (c : ascii) : option Z :=
  let n := Z.of_N (N_of_ascii c) in
  if (48 <=? n) && (n <=? 57) then Some (n - 48) else None.

(** Exactly [k] decimal digits. *)
Fixpoint read_digits (k : nat) (acc : Z) (s : string) : option (Z * string) :=
  match k with
  | O => Some (acc, s)
  | S k' =>
      match s with
      | String c s' => d ← digit_of c; read_digits k' (10 * acc + d) s'
      | EmptyString => None
      end
  end.

Definition read_char (c : ascii) (s : string) : option string :=
  match s with
  | String c' s' => if Ascii.eqb c c' then Some s' else None
  | EmptyString => None
  end.

Definition read_time (s : string) : option (Z * Z * Z) :=
  '(h, s) ← read_digits 2 0 s;
  s ← read_char ":" s;
  '(mi, s) ← read_digits 2 0 s;
  s ← read_char ":" s;
  '(sec, s) ← read_digits 2 0 s;
  match s with
  | EmptyString => Some (h, mi, sec)
  | _ => None
  end.

Definition read_civil (s : string) : option civil :=
  '(y, s) ← read_digits 4 0 s;
  s ← read_char "-" s;
  '(m, s) ← read_digits 2 0 s;
  s ← read_char "-" s;
  '(d, s) ← read_digits 2 0 s;
  match s with
  | EmptyString => Some (Civil y m d 0 0 0)
  | String sep s' =>
      if Ascii.eqb sep " " || Ascii.eqb sep "T" then
        '(h, mi, sec) ← read_time s'; Some (Civil y m d h mi sec)
      else None
  end.

Definition to_datetime (start_date : string) : result Timestamp :=
  match read_civil start_date with
  | Some c => if civil_valid c then checked (civil_to_ns c) else Raise ValueError
  | None => Raise ValueError
  end.

(** ** [pd.date_range(start, end, freq)] with a frequency in minutes

    Both ends are inclusive: the points are [b + k * stride] for [k] from 0
    to [(e - b) // stride], none when that quotient is negative. A stride of
    zero divides by zero. *)
Definition regular_range (b e stride : Z) : list Timestamp :=
  (fun k => b + k * stride) <$> seqZ 0 ((e - b) `div` stride + 1).

Definition date_range (start : string) (end_ : Timestamp) (freq_minutes : Z)
  : result (list Timestamp) :=
  b ← to_datetime start;
  stride ← checked (freq_minutes * NS_PER_MINUTE);
  if stride =? 0 then Raise ZeroDivisionError
  else Ok (regular_range b end_ stride).

(** ** The tariff (sen/kWh) and the peak hours of working days *)

(** The literals denote the nearest binary64 values, as they do in Python. *)
#[local] Set Warnings "-inexact-float".
Definition PRICE_OFF_PEAK : float := 34.43%float.
Definition PRICE_PEAK : float := 38.52%float.

Definition PEAK_START_HOUR : Z := 14.
Definition PEAK_END_HOUR : Z := 22.

(** ** The table

    [pd.DataFrame] takes the four columns and refuses columns of different
    lengths; [set_index] then makes the timestamps the key of the rows. *)

Record Columns : Type := {
  col_Timestamp : list Timestamp;
  col_Price_sen_per_kWh : list float;
  col_DayOfWeek : list Z;
  col_Hour : list Z
}.

Record DataFrame : Type := {
  index : list Timestamp;
  Price_sen_per_kWh : list float;
  DayOfWeek : list Z;
  Hour : list Z
}.

Definition pd_DataFrame (c : Columns) : result Columns :=
  let n := length (col_Timestamp c) in
  if (length (col_Price_sen_per_kWh c) =? n)%nat
     && (length (col_DayOfWeek c) =? n)%nat
     && (length (col_Hour c) =? n)%nat
  then Ok c else Raise ValueError.

Definition set_index_Timestamp (c : Columns) : DataFrame :=
  {| index := col_Timestamp c;
     Price_sen_per_kWh := col_Price_sen_per_kWh c;
     DayOfWeek := col_DayOfWeek c;
     Hour := col_Hour c |}.

(** One row of the table, by position ([iloc]) and by key ([loc]). *)
Record Row : Type := {
  timestamp : Timestamp;
  price : float;
  day_of_week : Z;
  hour_of_day : Z
}.

Definition nrows (df : DataFrame) : nat := length (index df).

Definition iloc (df : DataFrame) (i : nat) : option Row :=
  t ← index df !! i;
  p ← Price_sen_per_kWh df !! i;
  d ← DayOfWeek df !! i;
  h ← Hour df !! i;
  Some {| timestamp := t; price := p; day_of_week := d; hour_of_day := h |}.

Fixpoint position (key : Timestamp) (l : list Timestamp) : option nat :=
  match l with
  | [] => None
  | t :: l' => if key =? t then Some O else S <$> position key l'
  end.

Definition loc (df : DataFrame) (key : Timestamp) : option Row :=
  i ← position key (index df); iloc df i.

(** ** [generate_tnb_tou_data] *)

(** The body of the loop over [time_index]: one price appended per
    timestamp. *)
Definition loop_body (prices : list float) (timestamp : Timestamp) : list float :=
  let hour := hour timestamp in
  let day_of_week := dayofweek timestamp in
  let is_weekend := 5 <=? day_of_week in
  let price :=
    if is_weekend then PRICE_OFF_PEAK
    else if (PEAK_START_HOUR <=? hour) && (hour <? PEAK_END_HOUR) then PRICE_PEAK
    else PRICE_OFF_PEAK in
  prices ++ [price].

Definition generate_tnb_tou_data (start_date : string) (num_days time_step_minutes : Z)
  : result DataFrame :=
  start ← to_datetime start_date;
  days ← Timedelta_days num_days;
  sum ← timestamp_add start days;
  step ← Timedelta_minutes time_step_minutes;
  end_date ← timestamp_sub sum step;
  time_index ← date_range start_date end_date time_step_minutes;
  let prices := foldl loop_body [] time_index in
  df ← pd_DataFrame {| col_Timestamp := time_index;
                       col_Price_sen_per_kWh := prices;
                       col_DayOfWeek := dayofweek <$> time_index;
                       col_Hour := hour <$> time_index |};
  Ok (set_index_Timestamp df).

(** ** Auxiliary definitions for the statements *)

(** The rule the loop applies, as a function of day of week and hour. *)
Definition tariff (day_of_week hour : Z) : float :=
  if 5 <=? day_of_week then PRICE_OFF_PEAK
  else if (PEAK_START_HOUR <=? hour) && (hour <? PEAK_END_HOUR) then PRICE_PEAK
  else PRICE_OFF_PEAK.

(** The table over a given index. *)
Definition table_over (time_index : list Timestamp) : DataFrame :=
  {| index := time_index;
     Price_sen_per_kWh := (fun t => tariff (dayofweek t) (hour t)) <$> time_index;
     DayOfWeek := dayofweek <$> time_index;
     Hour := hour <$> time_index |}.

(** Every duration and timestamp computed before the range is enumerated
    lies in the 64-bit range. *)
Definition no_overflow (start num_days time_step_minutes : Z) : bool :=
  in_bounds (num_days * NS_PER_DAY)
  && in_bounds (start + num_days * NS_PER_DAY)
  && in_bounds (time_step_minutes * NS_PER_MINUTE)
  && in_bounds (start + num_days * NS_PER_DAY - time_step_minutes * NS_PER_MINUTE).

(** The inclusive end of the range. *)
Definition end_of (start num_days time_step_minutes : Z) : Z :=
  start + num_days * NS_PER_DAY - time_step_minutes * NS_PER_MINUTE.

(** The row the table holds under a date given as text, as
    [df.loc['2025-01-06 14:00:00']]. *)
Definition loc_date (df : DataFrame) (date : string) : option Row :=
  match to_datetime date with
  | Ok t => loc df t
  | Raise _ => None
  end.

(** ** The module-level run

    The script generates thirty days from Monday 2025-01-06 at the default
    step of a quarter of an hour, then writes and prints the table. *)

Definition NUM_DAYS_FOR_TRAINING : Z := 30.

(** The default of the parameter [time_step_minutes]. *)
Definition default_time_step_minutes : Z := 15.

Definition price_data_30_days : result DataFrame :=
  generate_tnb_tou_data "2025-01-06 00:00:00"%string NUM_DAYS_FOR_TRAINING
    default_time_step_minutes.

(** * Properties *)

(** ** The loop and the frame *)

Lemma loop_body_tariff prices t :
  loop_body prices t = prices ++ [tariff (dayofweek t) (hour t)].
Proof. reflexivity. Qed.

Lemma foldl_loop_body time_index acc :
  foldl loop_body acc time_index
  = acc ++ ((fun t => tariff (dayofweek t) (hour t)) <$> time_index).
Proof.
  revert acc. induction time_index as [|t l IH]; intros acc; simpl.
  - by rewrite app_nil_r.
  - rewrite IH, loop_body_tariff, <- app_assoc. reflexivity.
Qed.

Lemma length_foldl_loop_body time_index :
  length (foldl loop_body [] time_index) = length time_index.
Proof. rewrite foldl_loop_body. simpl. apply length_fmap. Qed.

(** The frame constructor never refuses the four columns of the program. *)
Lemma pd_DataFrame_columns time_index :
  (df ← pd_DataFrame {| col_Timestamp := time_index;
                         col_Price_sen_per_kWh := foldl loop_body [] time_index;
                         col_DayOfWeek := dayofweek <$> time_index;
                         col_Hour := hour <$> time_index |};
   Ok (set_index_Timestamp df))
  = Ok (table_over time_index).
Proof.
  unfold pd_DataFrame. simpl.
  rewrite length_foldl_loop_body, !length_fmap, Nat.eqb_refl. simpl.
  unfold set_index_Timestamp, table_over. simpl.
  by rewrite foldl_loop_body.
Qed.

(** ** What the function returns, case by case *)

Lemma checked_Ok v : in_bounds v = true -> checked v = Ok v.
Proof. unfold checked. by intros ->. Qed.

Lemma checked_Raise v : in_bounds v = false -> checked v = Raise OutOfBounds.
Proof. unfold checked. by intros ->. Qed.

Lemma to_datetime_in_bounds s t : to_datetime s = Ok t -> in_bounds t = true.
Proof.
  unfold to_datetime, checked. intros H.
  destruct (read_civil s) as [c|]; [|discriminate].
  destruct (civil_valid c); [|discriminate].
  destruct (in_bounds (civil_to_ns c)) eqn:Hb; [|discriminate].
  by injection H as <-.
Qed.

Lemma generate_in_range s start n step :
  to_datetime s = Ok start ->
  no_overflow start n step = true ->
  generate_tnb_tou_data s n step
  = if step * NS_PER_MINUTE =? 0 then Raise ZeroDivisionError
    else Ok (table_over (regular_range start (end_of start n step) (step * NS_PER_MINUTE))).
Proof.
  intros Hs Hno. unfold no_overflow in Hno.
  apply andb_prop in Hno as [Hno H4]. apply andb_prop in Hno as [Hno H3].
  apply andb_prop in Hno as [H1 H2].
  unfold generate_tnb_tou_data, Timedelta_days, timestamp_add,
    Timedelta_minutes, timestamp_sub, date_range.
  rewrite Hs. simpl.
  rewrite (checked_Ok _ H1). simpl.
  rewrite (checked_Ok _ H2). simpl.
  rewrite (checked_Ok _ H3). simpl.
  rewrite (checked_Ok _ H4). simpl.
  destruct (step * NS_PER_MINUTE =? 0); [reflexivity|].
  simpl. apply pd_DataFrame_columns.
Qed.

Lemma generate_Ok s start n step :
  to_datetime s = Ok start ->
  no_overflow start n step = true ->
  step <> 0 ->
  generate_tnb_tou_data s n step
  = Ok (table_over (regular_range start (end_of start n step) (step * NS_PER_MINUTE))).
Proof.
  intros Hs Hno Hstep. rewrite (generate_in_range _ _ _ _ Hs Hno).
  assert ((step * NS_PER_MINUTE =? 0) = false) as ->; [|reflexivity].
  apply Z.eqb_neq. unfold NS_PER_MINUTE, NS_PER_SECOND. lia.
Qed.

Lemma generate_overflow s start n step :
  to_datetime s = Ok start ->
  no_overflow start n step = false ->
  generate_tnb_tou_data s n step = Raise OutOfBounds.
Proof.
  intros Hs Hno. unfold no_overflow in Hno.
  unfold generate_tnb_tou_data, Timedelta_days, timestamp_add,
    Timedelta_minutes, timestamp_sub.
  rewrite Hs. simpl.
  destruct (in_bounds (n * NS_PER_DAY)) eqn:H1;
    [rewrite (checked_Ok _ H1); simpl | by rewrite (checked_Raise _ H1)].
  destruct (in_bounds (start + n * NS_PER_DAY)) eqn:H2;
    [rewrite (checked_Ok _ H2); simpl | by rewrite (checked_Raise _ H2)].
  destruct (in_bounds (step * NS_PER_MINUTE)) eqn:H3;
    [rewrite (checked_Ok _ H3); simpl | by rewrite (checked_Raise _ H3)].
  destruct (in_bounds (start + n * NS_PER_DAY - step * NS_PER_MINUTE)) eqn:H4;
    [discriminate | by rewrite (checked_Raise _ H4)].
Qed.

Lemma generate_zero_step s start n :
  to_datetime s = Ok start ->
  no_overflow start n 0 = true ->
  generate_tnb_tou_data s n 0 = Raise ZeroDivisionError.
Proof. intros Hs Hno. by rewrite (generate_in_range _ _ _ _ Hs Hno). Qed.

Lemma generate_unparsed s e n step :
  to_datetime s = Raise e -> generate_tnb_tou_data s n step = Raise e.
Proof. intros Hs. unfold generate_tnb_tou_data. by rewrite Hs. Qed.

(** Every table the function returns is the table over a regular range. *)
Lemma generate_Ok_inv s n step df :
  generate_tnb_tou_data s n step = Ok df ->
  exists start,
    to_datetime s = Ok start /\ no_overflow start n step = true /\ step <> 0 /\
    df = table_over (regular_range start (end_of start n step) (step * NS_PER_MINUTE)).
Proof.
  intros H.
  destruct (to_datetime s) as [start|e] eqn:Hs.
  2:{ rewrite (generate_unparsed _ _ _ _ Hs) in H. discriminate. }
  destruct (no_overflow start n step) eqn:Hno.
  2:{ rewrite (generate_overflow _ _ _ _ Hs Hno) in H. discriminate. }
  destruct (decide (step = 0)) as [->|Hstep].
  { rewrite (generate_zero_step _ _ _ Hs Hno) in H. discriminate. }
  rewrite (generate_Ok _ _ _ _ Hs Hno Hstep) in H. injection H as <-.
  by exists start.
Qed.

(** ** The regular range *)

Lemma length_regular_range b e stride :
  length (regular_range b e stride) = Z.to_nat ((e - b) `div` stride + 1).
Proof. unfold regular_range. by rewrite length_fmap, length_seqZ. Qed.

Lemma lookup_regular_range b e stride (i : nat) t :
  regular_range b e stride !! i = Some t
  <-> t = b + Z.of_nat i * stride /\ Z.of_nat i < (e - b) `div` stride + 1.
Proof.
  unfold regular_range. rewrite list_lookup_fmap, fmap_Some. split.
  - intros (k & Hk & ->). apply lookup_seqZ in Hk as [-> Hlt]. split; [lia|done].
  - intros [-> Hlt]. exists (Z.of_nat i). split; [|done].
    apply lookup_seqZ. split; [lia|done].
Qed.

Lemma NS_PER_MINUTE_pos : 0 < NS_PER_MINUTE.
Proof. reflexivity. Qed.

Lemma NS_PER_DAY_minutes : NS_PER_DAY = 1440 * NS_PER_MINUTE.
Proof. reflexivity. Qed.

(** From the start to the inclusive end there are [num_days * 1440 //
    time_step_minutes] whole steps less one. *)
Lemma steps_to_end start n step :
  step <> 0 ->
  (end_of start n step - start) `div` (step * NS_PER_MINUTE) + 1
  = (n * 1440) `div` step.
Proof.
  intros Hstep. unfold end_of. rewrite NS_PER_DAY_minutes.
  pose proof NS_PER_MINUTE_pos as Hpos.
  replace (start + n * (1440 * NS_PER_MINUTE) - step * NS_PER_MINUTE - start)
    with ((n * 1440 - step) * NS_PER_MINUTE) by ring.
  rewrite Z.div_mul_cancel_r by lia.
  replace (n * 1440 - step) with (n * 1440 + (-1) * step) by ring.
  rewrite Z.div_add by done. lia.
Qed.

Lemma nrows_table_over l : nrows (table_over l) = length l.
Proof. reflexivity. Qed.

Lemma nrows_generate s n step df :
  generate_tnb_tou_data s n step = Ok df ->
  nrows df = Z.to_nat ((n * 1440) `div` step).
Proof.
  intros (start & _ & _ & Hstep & ->)%generate_Ok_inv.
  by rewrite nrows_table_over, length_regular_range, steps_to_end.
Qed.

(** ** Rows of the table over an index *)

Lemma iloc_table_over l (i : nat) r :
  iloc (table_over l) i = Some r
  <-> exists t, l !! i = Some t /\
        r = {| timestamp := t; price := tariff (dayofweek t) (hour t);
               day_of_week := dayofweek t; hour_of_day := hour t |}.
Proof.
  unfold iloc, table_over. simpl. rewrite !list_lookup_fmap.
  destruct (l !! i) as [t|]; simpl.
  - split; [intros [= <-]; by exists t | intros (t' & [= <-] & ->); done].
  - split; [done | intros (t' & [=] & _)].
Qed.

Lemma position_lookup key l (i : nat) :
  position key l = Some i -> l !! i = Some key.
Proof.
  revert i. induction l as [|t l IH]; intros i; simpl; [done|].
  destruct (Z.eqb_spec key t) as [->|Hne].
  - by intros [= <-].
  - destruct (position key l) as [j|]; simpl; [|done].
    intros [= <-]. simpl. by apply IH.
Qed.

Lemma position_NoDup l (i : nat) t :
  NoDup l -> l !! i = Some t -> position t l = Some i.
Proof.
  intros Hnd. revert i. induction Hnd as [|x l Hx Hnd IH]; intros i; [done|].
  destruct i as [|i]; simpl.
  - intros [= ->]. by rewrite Z.eqb_refl.
  - intros Hi. destruct (Z.eqb_spec t x) as [->|Hne].
    + exfalso. apply Hx. by eapply list_elem_of_lookup_2.
    + by rewrite (IH _ Hi).
Qed.

Lemma NoDup_regular_range b e stride :
  stride <> 0 -> NoDup (regular_range b e stride).
Proof.
  intros Hs. unfold regular_range. apply NoDup_fmap_2; [|apply NoDup_seqZ].
  intros k1 k2 Heq. nia.
Qed.

Lemma strictly_increasing_regular_range b e stride (i j : nat) t t' :
  0 < stride -> (i < j)%nat ->
  regular_range b e stride !! i = Some t ->
  regular_range b e stride !! j = Some t' ->
  t < t'.
Proof.
  intros Hs Hij [-> _]%lookup_regular_range [-> _]%lookup_regular_range. nia.
Qed.

Lemma consecutive_regular_range b e stride (i : nat) t t' :
  regular_range b e stride !! i = Some t ->
  regular_range b e stride !! S i = Some t' ->
  t' - t = stride.
Proof.
  intros [-> _]%lookup_regular_range [-> _]%lookup_regular_range. lia.
Qed.

(** ** The two prices *)

Lemma prices_differ : PRICE_OFF_PEAK <> PRICE_PEAK.
Proof.
  intros H. apply (f_equal (fun x => PrimFloat.ltb x PRICE_PEAK)) in H.
  vm_compute in H. discriminate.
Qed.

Lemma tariff_cases d h :
  tariff d h = PRICE_OFF_PEAK \/ tariff d h = PRICE_PEAK.
Proof.
  unfold tariff. destruct (5 <=? d); [by left|].
  destruct ((PEAK_START_HOUR <=? h) && (h <? PEAK_END_HOUR)); [by right | by left].
Qed.

Lemma tariff_weekend d h : 5 <= d -> tariff d h = PRICE_OFF_PEAK.
Proof. intros Hd. unfold tariff. by rewrite (proj2 (Z.leb_le 5 d) Hd). Qed.

Lemma tariff_peak d h : d < 5 -> 14 <= h < 22 -> tariff d h = PRICE_PEAK.
Proof.
  intros Hd [H1 H2]. unfold tariff, PEAK_START_HOUR, PEAK_END_HOUR.
  rewrite (proj2 (Z.leb_gt 5 d) Hd).
  by rewrite (proj2 (Z.leb_le 14 h) H1), (proj2 (Z.ltb_lt h 22) H2).
Qed.

Lemma tariff_off_peak d h : d < 5 -> ~ (14 <= h < 22) -> tariff d h = PRICE_OFF_PEAK.
Proof.
  intros Hd Hh. unfold tariff, PEAK_START_HOUR, PEAK_END_HOUR.
  rewrite (proj2 (Z.leb_gt 5 d) Hd).
  destruct (Z.leb_spec 14 h), (Z.ltb_spec h 22); simpl; try reflexivity. lia.
Qed.

(** ** The calendar fields of a timestamp *)

Lemma hour_range t : 0 <= hour t <= 23.
Proof. unfold hour. pose proof (Z.mod_pos_bound (t `div` NS_PER_HOUR) 24). lia. Qed.

Lemma dayofweek_range t : 0 <= dayofweek t <= 6.
Proof. unfold dayofweek. pose proof (Z.mod_pos_bound (t `div` NS_PER_DAY + 3) 7). lia. Qed.

(** The next day is the next day of the week. *)
Lemma dayofweek_next_day t :
  dayofweek (t + NS_PER_DAY) = (dayofweek t + 1) `mod` 7.
Proof.
  unfold dayofweek.
  replace (t + NS_PER_DAY) with (t + 1 * NS_PER_DAY) by ring.
  rewrite Z.div_add by done.
  rewrite Zplus_mod_idemp_l. f_equal. ring.
Qed.

(** The hour of a timestamp read from text is the hour written there. *)
Lemma hour_civil_to_ns c :
  civil_valid c = true -> 0 <= c_hour c -> 0 <= c_minute c -> 0 <= c_second c ->
  hour (civil_to_ns c) = c_hour c.
Proof.
  intros Hv Hh Hm Hs. unfold civil_valid in Hv.
  repeat (apply andb_prop in Hv as [Hv ?]).
  unfold hour, civil_to_ns.
  set (days := days_from_civil (c_year c) (c_month c) (c_day c)).
  replace ((((days * 24 + c_hour c) * 60 + c_minute c) * 60 + c_second c) * NS_PER_SECOND)
    with (((c_minute c * 60 + c_second c) * NS_PER_SECOND) + (days * 24 + c_hour c) * NS_PER_HOUR)
    by (unfold NS_PER_HOUR, NS_PER_MINUTE; ring).
  rewrite Z.div_add by done.
  rewrite (Z.div_small ((c_minute c * 60 + c_second c) * NS_PER_SECOND)).
  2:{ unfold NS_PER_HOUR, NS_PER_MINUTE, NS_PER_SECOND. lia. }
  replace (0 + (days * 24 + c_hour c)) with (c_hour c + days * 24) by ring.
  rewrite Z.mod_add by done. apply Z.mod_small. lia.
Qed.

(** Its day of the week is that of its date: the days since the epoch,
    which began on a Thursday, counted modulo seven. *)
Lemma dayofweek_civil_to_ns c :
  civil_valid c = true -> 0 <= c_hour c -> 0 <= c_minute c -> 0 <= c_second c ->
  dayofweek (civil_to_ns c)
  = (days_from_civil (c_year c) (c_month c) (c_day c) + 3) `mod` 7.
Proof.
  intros Hv Hh Hm Hs. unfold civil_valid in Hv.
  repeat (apply andb_prop in Hv as [Hv ?]).
  unfold dayofweek, civil_to_ns.
  set (days := days_from_civil (c_year c) (c_month c) (c_day c)).
  replace ((((days * 24 + c_hour c) * 60 + c_minute c) * 60 + c_second c) * NS_PER_SECOND)
    with ((((c_hour c * 60 + c_minute c) * 60 + c_second c) * NS_PER_SECOND) + days * NS_PER_DAY)
    by (unfold NS_PER_DAY, NS_PER_HOUR, NS_PER_MINUTE; ring).
  rewrite Z.div_add by done.
  rewrite Z.div_small; [done|].
  unfold NS_PER_DAY, NS_PER_HOUR, NS_PER_MINUTE, NS_PER_SECOND. lia.
Qed.

(** A row of a returned table is the row of one point of the range. *)
Lemma generate_row s n step df (i : nat) r :
  generate_tnb_tou_data s n step = Ok df ->
  iloc df i = Some r ->
  index df !! i = Some (timestamp r)
  /\ price r = tariff (dayofweek (timestamp r)) (hour (timestamp r))
  /\ day_of_week r = dayofweek (timestamp r)
  /\ hour_of_day r = hour (timestamp r).
Proof.
  intros (start & _ & _ & _ & ->)%generate_Ok_inv.
  intros (t & Ht & ->)%iloc_table_over. simpl. done.
Qed.

Local Open Scope string_scope.

(** * The claims *)

(** C1. For every valid input (a start date that parses, a positive number
    of days, a positive step), the returned table has exactly
    [num_days * 1440 // time_step_minutes] rows, the division rounding
    down. A table is returned whenever the durations and timestamps the
    function computes on the way stay within the 64-bit nanosecond range. *)
Theorem row_count s start n step :
  to_datetime s = Ok start -> 0 < n -> 0 < step ->
  (forall df, generate_tnb_tou_data s n step = Ok df ->
     Z.of_nat (nrows df) = (n * 1440) `div` step)
  /\ (no_overflow start n step = true ->
      exists df, generate_tnb_tou_data s n step = Ok df).
Proof.
  intros Hs Hn Hstep. split.
  - intros df Hdf. rewrite (nrows_generate _ _ _ _ Hdf).
    apply Z2Nat.id. apply Z.div_pos; lia.
  - intros Hno. eexists. apply (generate_Ok _ _ _ _ Hs Hno). lia.
Qed.

Lemma row_count_witness :
  (forall df, generate_tnb_tou_data "2025-01-06 00:00:00" 1 7 = Ok df ->
     Z.of_nat (nrows df) = 205)
  /\ (exists df, generate_tnb_tou_data "2025-01-06 00:00:00" 1 7 = Ok df).
Proof.
  destruct (row_count "2025-01-06 00:00:00" 1736121600000000000 1 7)
    as [Hcount Hreturns]; [reflexivity | lia | lia |].
  split; [exact Hcount | apply Hreturns; reflexivity].
Defined.

(** C2. In every row of a generated table whose day of the week is Monday
    to Friday (0 to 4), the price is 38.52 when [14 <= hour < 22] and 34.43
    at every other hour. *)
Theorem weekday_price s n step df (i : nat) r :
  generate_tnb_tou_data s n step = Ok df ->
  iloc df i = Some r ->
  0 <= day_of_week r <= 4 ->
  (14 <= hour_of_day r < 22 -> price r = PRICE_PEAK)
  /\ (~ (14 <= hour_of_day r < 22) -> price r = PRICE_OFF_PEAK).
Proof.
  intros Hdf Hr Hd.
  destruct (generate_row _ _ _ _ _ _ Hdf Hr) as (_ & -> & Hdow & Hh).
  rewrite <- Hdow, <- Hh. split; intros Hhour.
  - apply tariff_peak; lia.
  - apply tariff_off_peak; [lia | done].
Qed.

Lemma weekday_price_witness :
  let r := {| timestamp := 1736179200000000000; price := PRICE_PEAK;
              day_of_week := 0; hour_of_day := 16 |} in
  (14 <= hour_of_day r < 22 -> price r = PRICE_PEAK)
  /\ (~ (14 <= hour_of_day r < 22) -> price r = PRICE_OFF_PEAK).
Proof.
  eapply (weekday_price "2025-01-06 00:00:00" 1 240 _ 4%nat).
  - vm_compute. reflexivity.
  - vm_compute. reflexivity.
  - simpl. lia.
Defined.

(** C3. In every row of a generated table whose day of the week is Saturday
    or Sunday (5 or 6), the price is 34.43, whatever the hour. *)
Theorem weekend_price s n step df (i : nat) r :
  generate_tnb_tou_data s n step = Ok df ->
  iloc df i = Some r ->
  day_of_week r = 5 \/ day_of_week r = 6 ->
  price r = PRICE_OFF_PEAK.
Proof.
  intros Hdf Hr Hd.
  destruct (generate_row _ _ _ _ _ _ Hdf Hr) as (_ & -> & Hdow & _).
  rewrite <- Hdow. apply tariff_weekend. lia.
Qed.

Lemma weekend_price_witness :
  price {| timestamp := 1736611200000000000; price := PRICE_OFF_PEAK;
           day_of_week := 5; hour_of_day := 16 |} = PRICE_OFF_PEAK.
Proof.
  eapply (weekend_price "2025-01-11 00:00:00" 1 240 _ 4%nat).
  - vm_compute. reflexivity.
  - vm_compute. reflexivity.
  - simpl. lia.
Defined.

(** C4. In every row of every generated table the price is one of the two
    constants 34.43 and 38.52, which differ, and never a third value; and
    the price depends on the day of the week and the hour alone: two rows,
    of the same table or of two tables, that agree on both carry the same
    price. *)
Theorem price_two_valued s n step df (i : nat) r :
  generate_tnb_tou_data s n step = Ok df ->
  iloc df i = Some r ->
  ((price r = PRICE_OFF_PEAK /\ price r <> PRICE_PEAK)
   \/ (price r = PRICE_PEAK /\ price r <> PRICE_OFF_PEAK))
  /\ price r = tariff (day_of_week r) (hour_of_day r)
  /\ (forall s' n' step' df' (i' : nat) r',
        generate_tnb_tou_data s' n' step' = Ok df' ->
        iloc df' i' = Some r' ->
        day_of_week r' = day_of_week r ->
        hour_of_day r' = hour_of_day r ->
        price r' = price r).
Proof.
  intros Hdf Hr.
  destruct (generate_row _ _ _ _ _ _ Hdf Hr) as (_ & Hp & Hdow & Hh).
  rewrite <- Hdow, <- Hh in Hp. split; [|split; [done|]].
  - rewrite Hp.
    destruct (tariff_cases (day_of_week r) (hour_of_day r)) as [->| ->].
    + left. split; [done | apply prices_differ].
    + right. split; [done|]. intros H. by apply prices_differ.
  - intros s' n' step' df' i' r' Hdf' Hr' Hd' Hh'.
    destruct (generate_row _ _ _ _ _ _ Hdf' Hr') as (_ & Hp' & Hdow' & Hhour').
    rewrite <- Hdow', <- Hhour' in Hp'. by rewrite Hp, Hp', Hd', Hh'.
Qed.

Lemma price_two_valued_witness :
  let r := {| timestamp := 1736179200000000000; price := PRICE_PEAK;
              day_of_week := 0; hour_of_day := 16 |} in
  ((price r = PRICE_OFF_PEAK /\ price r <> PRICE_PEAK)
   \/ (price r = PRICE_PEAK /\ price r <> PRICE_OFF_PEAK))
  /\ price r = tariff (day_of_week r) (hour_of_day r)
  /\ (forall s' n' step' df' (i' : nat) r',
        generate_tnb_tou_data s' n' step' = Ok df' ->
        iloc df' i' = Some r' ->
        day_of_week r' = day_of_week r ->
        hour_of_day r' = hour_of_day r ->
        price r' = price r).
Proof.
  eapply (price_two_valued "2025-01-06 00:00:00" 1 240 _ 4%nat).
  - vm_compute. reflexivity.
  - vm_compute. reflexivity.
Defined.

(** C5. For every valid input the timestamps of the generated table are
    strictly increasing, hence without duplicates, and two consecutive rows
    are exactly [time_step_minutes] minutes apart. *)
Theorem timestamps_regular s n step df :
  generate_tnb_tou_data s n step = Ok df ->
  0 < n -> 0 < step ->
  (forall (i j : nat) t t',
      (i < j)%nat -> index df !! i = Some t -> index df !! j = Some t' -> t < t')
  /\ NoDup (index df)
  /\ (forall (i : nat) t t',
        index df !! i = Some t -> index df !! S i = Some t' ->
        t' - t = step * NS_PER_MINUTE).
Proof.
  intros (start & _ & _ & Hne & ->)%generate_Ok_inv Hn Hstep. simpl.
  pose proof NS_PER_MINUTE_pos as Hpos.
  split; [|split].
  - intros i j t t' Hij Hi Hj.
    eapply strictly_increasing_regular_range; [|exact Hij|exact Hi|exact Hj]. nia.
  - apply NoDup_regular_range. nia.
  - intros i t t' Hi Hj. by eapply consecutive_regular_range.
Qed.

Lemma timestamps_regular_witness :
  let df := table_over [1736121600000000000; 1736143200000000000;
                        1736164800000000000; 1736186400000000000] in
  (forall (i j : nat) t t',
      (i < j)%nat -> index df !! i = Some t -> index df !! j = Some t' -> t < t')
  /\ NoDup (index df)
  /\ (forall (i : nat) t t',
        index df !! i = Some t -> index df !! S i = Some t' ->
        t' - t = 360 * NS_PER_MINUTE).
Proof.
  apply (timestamps_regular "2025-01-06 00:00:00" 1 360);
    [vm_compute; reflexivity | lia | lia].
Defined.

(** C6, as the code has it. The function checks neither the number of days
    nor the sign of the step. For a start date that parses, and as long as
    the durations and timestamps it computes stay within the 64-bit
    nanosecond range, it raises exactly when the step is zero; with any other
    step, negative ones included, and any number of days, zero and negative
    ones included, it returns a table. A call that raises returns no
    table. *)
Theorem failure_conditions s start n step :
  to_datetime s = Ok start ->
  no_overflow start n step = true ->
  (raises (generate_tnb_tou_data s n step) <-> step = 0)
  /\ (step <> 0 -> exists df, generate_tnb_tou_data s n step = Ok df)
  /\ (raises (generate_tnb_tou_data s n step) ->
      forall df, generate_tnb_tou_data s n step <> Ok df).
Proof.
  intros Hs Hno. split; [|split].
  - destruct (decide (step = 0)) as [->|Hstep].
    + rewrite (generate_zero_step _ _ _ Hs Hno). split; [done|].
      intros _. by eexists.
    + rewrite (generate_Ok _ _ _ _ Hs Hno Hstep). split; [|done].
      intros [e He]. discriminate.
  - intros Hstep. eexists. apply (generate_Ok _ _ _ _ Hs Hno Hstep).
  - intros [e He] df. rewrite He. discriminate.
Qed.

Lemma failure_conditions_witness :
  (raises (generate_tnb_tou_data "2025-01-06 00:00:00" (-1) (-15)) <-> -15 = 0)
  /\ (-15 <> 0 ->
      exists df, generate_tnb_tou_data "2025-01-06 00:00:00" (-1) (-15) = Ok df)
  /\ (raises (generate_tnb_tou_data "2025-01-06 00:00:00" (-1) (-15)) ->
      forall df, generate_tnb_tou_data "2025-01-06 00:00:00" (-1) (-15) <> Ok df).
Proof.
  apply (failure_conditions "2025-01-06 00:00:00" 1736121600000000000 (-1) (-15));
    reflexivity.
Defined.

(** C6, as the spec words it, fails three ways at 2025-01-06 00:00:00: zero
    days with a step of 15 raise nothing; one day with a step of -15 raises
    nothing; and ten to the seventeen days with a step of 15 raise although
    every input is valid. *)
Lemma validation_counterexample :
  let s := "2025-01-06 00:00:00" in
  ~ (raises (generate_tnb_tou_data s 0 15)
     <-> (0 <= 0 \/ 15 <= 0 \/ raises (to_datetime s)))
  /\ ~ (raises (generate_tnb_tou_data s 1 (-15))
        <-> (1 <= 0 \/ -15 <= 0 \/ raises (to_datetime s)))
  /\ ~ (raises (generate_tnb_tou_data s (10 ^ 17) 15)
        <-> (10 ^ 17 <= 0 \/ 15 <= 0 \/ raises (to_datetime s))).
Proof.
  simpl. split; [|split].
  - intros [_ H]. destruct H as [e He]; [left; lia|].
    vm_compute in He. discriminate.
  - intros [_ H]. destruct H as [e He]; [right; left; lia|].
    vm_compute in He. discriminate.
  - intros [H _]. destruct H as [H|[H|[e He]]].
    + exists OutOfBounds. vm_compute. reflexivity.
    + lia.
    + lia.
    + vm_compute in He. discriminate.
Qed.

(** C7. From Monday 2025-01-06 00:00:00, one day at 15 minutes: 96 rows; the
    row at 00:00 has price 34.43, day of week 0 and hour 0; the rows at
    14:00 and 21:45 have price 38.52; the row at 22:00 has price 34.43. *)
Theorem monday_scenario :
  exists df,
    generate_tnb_tou_data "2025-01-06 00:00:00" 1 15 = Ok df
    /\ nrows df = 96%nat
    /\ loc_date df "2025-01-06 00:00:00"
       = Some {| timestamp := 1736121600000000000; price := PRICE_OFF_PEAK;
                 day_of_week := 0; hour_of_day := 0 |}
    /\ price <$> loc_date df "2025-01-06 14:00:00" = Some PRICE_PEAK
    /\ price <$> loc_date df "2025-01-06 21:45:00" = Some PRICE_PEAK
    /\ price <$> loc_date df "2025-01-06 22:00:00" = Some PRICE_OFF_PEAK.
Proof.
  eexists. split; [vm_compute; reflexivity|].
  repeat split; vm_compute; reflexivity.
Qed.

(** C8. Every row of a returned table carries a price, a day of the week
    and an hour under its timestamp: the four columns have one length, each
    position holds a row, the row is the one found under its timestamp, its
    day of the week (0 to 6) and hour (0 to 23) are those of its timestamp,
    and its price is a number. *)
Theorem rows_complete s n step df :
  generate_tnb_tou_data s n step = Ok df ->
  length (Price_sen_per_kWh df) = nrows df
  /\ length (DayOfWeek df) = nrows df
  /\ length (Hour df) = nrows df
  /\ (forall i : nat, (i < nrows df)%nat -> is_Some (iloc df i))
  /\ (forall (i : nat) r, iloc df i = Some r ->
        index df !! i = Some (timestamp r)
        /\ loc df (timestamp r) = Some r
        /\ day_of_week r = dayofweek (timestamp r)
        /\ 0 <= day_of_week r <= 6
        /\ hour_of_day r = hour (timestamp r)
        /\ 0 <= hour_of_day r <= 23
        /\ PrimFloat.is_nan (price r) = false).
Proof.
  intros Hdf.
  destruct (generate_Ok_inv _ _ _ _ Hdf) as (start & _ & _ & Hstep & Heq).
  split; [|split; [|split; [|split]]].
  - subst df. unfold nrows. simpl. apply length_fmap.
  - subst df. unfold nrows. simpl. apply length_fmap.
  - subst df. unfold nrows. simpl. apply length_fmap.
  - intros i Hi. subst df. rewrite nrows_table_over in Hi.
    apply lookup_lt_is_Some_2 in Hi as [t Ht].
    eexists. apply iloc_table_over. by exists t.
  - intros i r Hr.
    destruct (generate_row _ _ _ _ _ _ Hdf Hr) as (Hi & Hp & Hd & Hh).
    split; [done|]. split.
    { unfold loc. rewrite (position_NoDup _ i _); [done| |done].
      subst df. simpl. apply NoDup_regular_range.
      pose proof NS_PER_MINUTE_pos. nia. }
    split; [done|]. split; [rewrite Hd; apply dayofweek_range|].
    split; [done|]. split; [rewrite Hh; apply hour_range|].
    rewrite Hp.
    destruct (tariff_cases (dayofweek (timestamp r)) (hour (timestamp r)))
      as [->| ->]; reflexivity.
Qed.

Lemma rows_complete_witness :
  let df := table_over [1736121600000000000; 1736143200000000000;
                        1736164800000000000; 1736186400000000000] in
  length (Price_sen_per_kWh df) = nrows df
  /\ length (DayOfWeek df) = nrows df
  /\ length (Hour df) = nrows df
  /\ (forall i : nat, (i < nrows df)%nat -> is_Some (iloc df i))
  /\ (forall (i : nat) r, iloc df i = Some r ->
        index df !! i = Some (timestamp r)
        /\ loc df (timestamp r) = Some r
        /\ day_of_week r = dayofweek (timestamp r)
        /\ 0 <= day_of_week r <= 6
        /\ hour_of_day r = hour (timestamp r)
        /\ 0 <= hour_of_day r <= 23
        /\ PrimFloat.is_nan (price r) = false).
Proof.
  apply (rows_complete "2025-01-06 00:00:00" 1 360). vm_compute. reflexivity.
Defined.

(** C10, as the code has it. For a number of days that is zero or negative,
    a start date that parses and a positive step, the function raises
    nothing and returns the empty table, as long as the durations and
    timestamps it computes stay within the 64-bit nanosecond range: the
    inclusive end falls before the start. *)
Theorem nonpositive_days_empty s start n step :
  to_datetime s = Ok start -> n <= 0 -> 0 < step ->
  no_overflow start n step = true ->
  generate_tnb_tou_data s n step = Ok (table_over [])
  /\ nrows (table_over []) = 0%nat.
Proof.
  intros Hs Hn Hstep Hno. split; [|reflexivity].
  rewrite (generate_Ok _ _ _ _ Hs Hno) by lia. do 2 f_equal.
  apply length_zero_iff_nil.
  rewrite length_regular_range, steps_to_end by lia.
  assert ((n * 1440) `div` step <= 0); [|lia].
  apply Z.div_le_upper_bound; lia.
Qed.

Lemma nonpositive_days_empty_witness :
  generate_tnb_tou_data "2025-01-06 00:00:00" (-3) 15 = Ok (table_over [])
  /\ nrows (table_over []) = 0%nat.
Proof.
  apply (nonpositive_days_empty "2025-01-06 00:00:00" 1736121600000000000 (-3) 15);
    [reflexivity | lia | lia | reflexivity].
Defined.

(** C10, as stated for every number of days below one, fails at minus ten
    to the seventeen days: no duration of that length exists, and the call
    raises instead of returning an empty table. *)
Lemma nonpositive_days_counterexample :
  let s := "2025-01-06 00:00:00" in
  let n := - 10 ^ 17 in
  to_datetime s = Ok 1736121600000000000
  /\ n <= 0 /\ 0 < 15
  /\ generate_tnb_tou_data s n 15 = Raise OutOfBounds
  /\ ~ (exists df, generate_tnb_tou_data s n 15 = Ok df /\ nrows df = 0%nat).
Proof.
  simpl. split; [reflexivity|]. split; [lia|]. split; [lia|].
  split; [vm_compute; reflexivity|].
  intros (df & Hdf & _). vm_compute in Hdf. discriminate.
Qed.

(** * Further properties of the generated table *)

(** ** Supporting lemmas *)

Local Open Scope Z_scope.

Lemma position_is_Some key l : key ∈ l -> is_Some (position key l).
Proof.
  induction l as [|t l IH]; simpl.
  - intros H. by apply elem_of_nil in H.
  - intros [->|Hin]%elem_of_cons.
    + rewrite Z.eqb_refl. by eexists.
    + destruct (key =? t); [by eexists|].
      destruct (IH Hin) as [i ->]. by eexists.
Qed.

Lemma loc_is_Some_table_over l key :
  is_Some (loc (table_over l) key) <-> key ∈ l.
Proof.
  unfold loc. split.
  - intros [r Hr]. simpl in Hr.
    destruct (position key l) as [i|] eqn:Hp; [|discriminate].
    apply position_lookup in Hp. by eapply list_elem_of_lookup_2.
  - intros Hin. simpl. destruct (position_is_Some _ _ Hin) as [i Hp].
    rewrite Hp. simpl. pose proof (position_lookup _ _ _ Hp) as Hi.
    eexists. apply iloc_table_over. by exists key.
Qed.

Lemma elem_of_regular_range b e stride t :
  t ∈ regular_range b e stride
  <-> exists k, 0 <= k < (e - b) `div` stride + 1 /\ t = b + k * stride.
Proof.
  rewrite list_elem_of_lookup. split.
  - intros (i & [-> Hlt]%lookup_regular_range). exists (Z.of_nat i). lia.
  - intros (k & [Hk0 Hk] & ->). exists (Z.to_nat k).
    apply lookup_regular_range. rewrite Z2Nat.id by done. done.
Qed.

(** For a positive divisor, [k] is below the quotient exactly when one more
    multiple still fits. *)
Lemma below_quotient k a b :
  0 < b -> (k < a `div` b <-> (k + 1) * b <= a).
Proof.
  intros Hb. split.
  - intros Hk. pose proof (Z.mul_div_le a b Hb). nia.
  - intros Hk. assert (k + 1 <= a `div` b); [|lia].
    apply Z.div_le_lower_bound; lia.
Qed.

Lemma quotient_nonpos_neg a b : 0 <= a -> b < 0 -> a `div` b <= 0.
Proof.
  intros Ha Hb. rewrite <- Z.div_opp_opp by lia.
  apply Z.div_le_upper_bound; lia.
Qed.

Lemma hour_add_days t d : hour (t + d * NS_PER_DAY) = hour t.
Proof.
  unfold hour.
  replace (t + d * NS_PER_DAY) with (t + (d * 24) * NS_PER_HOUR)
    by (unfold NS_PER_DAY; ring).
  rewrite Z.div_add by done.
  apply Z.mod_add. done.
Qed.

Lemma dayofweek_add_weeks t w : dayofweek (t + w * (7 * NS_PER_DAY)) = dayofweek t.
Proof.
  unfold dayofweek.
  replace (t + w * (7 * NS_PER_DAY)) with (t + (w * 7) * NS_PER_DAY) by ring.
  rewrite Z.div_add by done.
  replace (t `div` NS_PER_DAY + w * 7 + 3) with (t `div` NS_PER_DAY + 3 + w * 7) by ring.
  apply Z.mod_add. done.
Qed.

Lemma regular_range_shift b e stride c :
  regular_range (b + c) (e + c) stride = (fun t => t + c) <$> regular_range b e stride.
Proof.
  unfold regular_range. rewrite <- list_fmap_compose.
  replace (e + c - (b + c)) with (e - b) by ring.
  apply list_fmap_ext. intros _ k _. simpl. ring.
Qed.

Lemma hour_next_day t : hour (t + NS_PER_DAY) = hour t.
Proof. rewrite <- (hour_add_days t 1). reflexivity. Qed.

Lemma end_of_shift start n step c :
  end_of (start + c) n step = end_of start n step + c.
Proof. unfold end_of. ring. Qed.

Lemma generate_Ok_start s start n step df :
  to_datetime s = Ok start ->
  generate_tnb_tou_data s n step = Ok df ->
  step <> 0
  /\ df = table_over (regular_range start (end_of start n step) (step * NS_PER_MINUTE)).
Proof.
  intros Hs (start' & Hs' & _ & Hstep & ->)%generate_Ok_inv.
  rewrite Hs in Hs'. injection Hs' as <-. done.
Qed.

(** ** Where the rows lie *)

(** X1. Row [i] of a returned table is keyed by the start date plus [i]
    steps, and the positions that hold a row are those below
    [num_days * 1440 // time_step_minutes]; so the first row, when there is
    one, is at the start date itself. *)
Theorem grid_points s start n step df :
  to_datetime s = Ok start ->
  generate_tnb_tou_data s n step = Ok df ->
  forall (i : nat) t,
    index df !! i = Some t
    <-> t = start + Z.of_nat i * (step * NS_PER_MINUTE)
        /\ Z.of_nat i < (n * 1440) `div` step.
Proof.
  intros Hs Hdf i t.
  destruct (generate_Ok_start _ _ _ _ _ Hs Hdf) as [Hstep ->]. simpl.
  by rewrite lookup_regular_range, steps_to_end.
Qed.

Lemma grid_points_witness :
  let df := table_over [1736121600000000000; 1736143200000000000;
                        1736164800000000000; 1736186400000000000] in
  index df !! 1%nat = Some 1736143200000000000
  <-> 1736143200000000000
      = 1736121600000000000 + Z.of_nat 1 * (360 * NS_PER_MINUTE)
      /\ Z.of_nat 1 < (1 * 1440) `div` 360.
Proof.
  apply (grid_points "2025-01-06 00:00:00" 1736121600000000000 1 360 _
           eq_refl); vm_compute; reflexivity.
Defined.

(** X2. With a positive step, a timestamp is a key of the returned table
    exactly when it is a whole number of steps after the start and the step
    that begins there ends no later than [num_days] days after the start: a
    last, shorter interval gets no row. *)
Theorem key_found s start n step df key :
  to_datetime s = Ok start ->
  generate_tnb_tou_data s n step = Ok df ->
  0 < step ->
  is_Some (loc df key)
  <-> exists k, 0 <= k /\ key = start + k * (step * NS_PER_MINUTE)
                /\ key + step * NS_PER_MINUTE <= start + n * NS_PER_DAY.
Proof.
  intros Hs Hdf Hstep.
  destruct (generate_Ok_start _ _ _ _ _ Hs Hdf) as [Hne ->].
  rewrite loc_is_Some_table_over, elem_of_regular_range, steps_to_end by done.
  pose proof NS_PER_MINUTE_pos as Hpos. rewrite NS_PER_DAY_minutes.
  split.
  - intros (k & [Hk0 Hk] & ->). exists k. split; [done|]. split; [done|].
    apply below_quotient in Hk; [|done]. nia.
  - intros (k & Hk0 & -> & Hk). exists k. split; [|done]. split; [done|].
    apply below_quotient; [done|]. nia.
Qed.

Lemma key_found_witness :
  let df := table_over [1736121600000000000; 1736143200000000000;
                        1736164800000000000; 1736186400000000000] in
  is_Some (loc df 1736143200000000000)
  <-> exists k, 0 <= k /\ 1736143200000000000
                          = 1736121600000000000 + k * (360 * NS_PER_MINUTE)
                /\ 1736143200000000000 + 360 * NS_PER_MINUTE
                   <= 1736121600000000000 + 1 * NS_PER_DAY.
Proof.
  apply (key_found "2025-01-06 00:00:00" 1736121600000000000 1 360);
    [reflexivity | vm_compute; reflexivity | lia].
Defined.

(** ** Steps the function does not refuse *)

(** X3. A negative step is not refused. The table then has
    [max 0 (num_days * 1440 // time_step_minutes)] rows: none when
    [num_days] is zero or more, and for a negative [num_days] rows that run
    backwards in time, every row earlier than the one before it. *)
Theorem negative_step_table s n step df :
  generate_tnb_tou_data s n step = Ok df ->
  step < 0 ->
  Z.of_nat (nrows df) = Z.max 0 ((n * 1440) `div` step)
  /\ (0 <= n -> nrows df = 0%nat)
  /\ (forall (i j : nat) t t',
        (i < j)%nat -> index df !! i = Some t -> index df !! j = Some t' -> t' < t).
Proof.
  intros Hdf Hstep. pose proof (nrows_generate _ _ _ _ Hdf) as Hrows.
  split; [lia|]. split.
  - intros Hn. rewrite Hrows.
    assert ((n * 1440) `div` step <= 0) by (apply quotient_nonpos_neg; lia). lia.
  - destruct (generate_Ok_inv _ _ _ _ Hdf) as (start & _ & _ & _ & ->). simpl.
    intros i j t t' Hij [-> _]%lookup_regular_range [-> _]%lookup_regular_range.
    assert (step * NS_PER_MINUTE < 0) by (pose proof NS_PER_MINUTE_pos; nia).
    nia.
Qed.

Lemma negative_step_table_witness :
  let df := table_over [1736121600000000000; 1736100000000000000;
                        1736078400000000000; 1736056800000000000] in
  Z.of_nat (nrows df) = Z.max 0 ((-1 * 1440) `div` (-360))
  /\ (0 <= -1 -> nrows df = 0%nat)
  /\ (forall (i j : nat) t t',
        (i < j)%nat -> index df !! i = Some t -> index df !! j = Some t' -> t' < t).
Proof.
  apply (negative_step_table "2025-01-06 00:00:00" (-1) (-360));
    [vm_compute; reflexivity | lia].
Defined.

(** X4. A positive step longer than the whole span is not refused either:
    the table is empty, without even a row at the start date. *)
Theorem step_longer_than_span s start n step :
  to_datetime s = Ok start ->
  0 < n -> n * 1440 < step ->
  no_overflow start n step = true ->
  exists df, generate_tnb_tou_data s n step = Ok df
             /\ nrows df = 0%nat /\ loc df start = None.
Proof.
  intros Hs Hn Hstep Hno. eexists. split.
  - apply (generate_Ok _ _ _ _ Hs Hno). lia.
  - assert (regular_range start (end_of start n step) (step * NS_PER_MINUTE) = [])
      as ->; [|done].
    apply length_zero_iff_nil.
    rewrite length_regular_range, steps_to_end by lia.
    rewrite Z.div_small by lia. reflexivity.
Qed.

Lemma step_longer_than_span_witness :
  exists df, generate_tnb_tou_data "2025-01-06 00:00:00" 1 2000 = Ok df
             /\ nrows df = 0%nat /\ loc df 1736121600000000000 = None.
Proof.
  apply (step_longer_than_span "2025-01-06 00:00:00" 1736121600000000000 1 2000);
    [reflexivity | lia | lia | reflexivity].
Defined.

(** ** How tables compare *)

(** X5. Asking for more days only appends rows: with the same start date and
    the same positive step, every row of the table for fewer days stands at
    the same position of the table for more days. *)
Theorem more_days_extend s n1 n2 step df1 df2 :
  generate_tnb_tou_data s n1 step = Ok df1 ->
  generate_tnb_tou_data s n2 step = Ok df2 ->
  0 < step -> n1 <= n2 ->
  (nrows df1 <= nrows df2)%nat
  /\ (forall (i : nat) r, iloc df1 i = Some r -> iloc df2 i = Some r).
Proof.
  intros Hdf1 Hdf2 Hstep Hn.
  assert ((n1 * 1440) `div` step <= (n2 * 1440) `div` step) as Hq
    by (apply Z.div_le_mono; lia).
  split.
  - rewrite (nrows_generate _ _ _ _ Hdf1), (nrows_generate _ _ _ _ Hdf2). lia.
  - destruct (generate_Ok_inv _ _ _ _ Hdf1) as (start & Hs & _ & Hne & ->).
    destruct (generate_Ok_start _ _ _ _ _ Hs Hdf2) as [_ ->].
    intros i r (t & Ht & ->)%iloc_table_over.
    apply iloc_table_over. exists t. split; [|done].
    apply lookup_regular_range in Ht as [-> Hi].
    apply lookup_regular_range. split; [done|].
    rewrite steps_to_end in * by done. lia.
Qed.

Lemma more_days_extend_witness :
  let df1 := table_over [1736121600000000000; 1736164800000000000] in
  let df2 := table_over [1736121600000000000; 1736164800000000000;
                         1736208000000000000; 1736251200000000000] in
  (nrows df1 <= nrows df2)%nat
  /\ (forall (i : nat) r, iloc df1 i = Some r -> iloc df2 i = Some r).
Proof.
  apply (more_days_extend "2025-01-06 00:00:00" 1 2 720);
    [vm_compute; reflexivity | vm_compute; reflexivity | lia | lia].
Defined.

(** X6. The tariff repeats every week: two runs whose start dates lie a
    whole number of weeks apart, with the same number of days and the same
    step, return the same prices, days of the week and hours, row for row,
    under keys shifted by those weeks. *)
Theorem weeks_alike s1 s2 t1 w n step df1 df2 :
  to_datetime s1 = Ok t1 ->
  to_datetime s2 = Ok (t1 + w * (7 * NS_PER_DAY)) ->
  generate_tnb_tou_data s1 n step = Ok df1 ->
  generate_tnb_tou_data s2 n step = Ok df2 ->
  index df2 = (fun t => t + w * (7 * NS_PER_DAY)) <$> index df1
  /\ Price_sen_per_kWh df2 = Price_sen_per_kWh df1
  /\ DayOfWeek df2 = DayOfWeek df1
  /\ Hour df2 = Hour df1.
Proof.
  intros Hs1 Hs2 Hdf1 Hdf2.
  destruct (generate_Ok_start _ _ _ _ _ Hs1 Hdf1) as [_ ->].
  destruct (generate_Ok_start _ _ _ _ _ Hs2 Hdf2) as [_ ->].
  rewrite end_of_shift, regular_range_shift. simpl.
  set (l := regular_range t1 (end_of t1 n step) (step * NS_PER_MINUTE)).
  assert (forall t, hour (t + w * (7 * NS_PER_DAY)) = hour t) as Hh.
  { intros t. rewrite <- (hour_add_days t (w * 7)). f_equal. ring. }
  split; [done|]. rewrite <- !list_fmap_compose.
  repeat split; apply list_fmap_ext; intros _ t _; simpl;
    by rewrite ?Hh, ?dayofweek_add_weeks.
Qed.

Lemma weeks_alike_witness :
  let df1 := table_over [1736121600000000000; 1736164800000000000] in
  let df2 := table_over [1736726400000000000; 1736769600000000000] in
  index df2 = (fun t => t + 1 * (7 * NS_PER_DAY)) <$> index df1
  /\ Price_sen_per_kWh df2 = Price_sen_per_kWh df1
  /\ DayOfWeek df2 = DayOfWeek df1
  /\ Hour df2 = Hour df1.
Proof.
  apply (weeks_alike "2025-01-06 00:00:00" "2025-01-13 00:00:00"
           1736121600000000000 1 1 720);
    [reflexivity | reflexivity | vm_compute; reflexivity | vm_compute; reflexivity].
Defined.

(** X7. When the positive step divides the 1440 minutes of a day, the grid
    keeps to the days: a table for [num_days >= 0] days has exactly
    [num_days * (1440 // time_step_minutes)] rows, and the row
    [1440 // time_step_minutes] positions after a row is keyed one day
    later, at the same hour, on the next day of the week. *)
Theorem rows_a_day_apart s n step df :
  generate_tnb_tou_data s n step = Ok df ->
  0 < step -> 1440 `mod` step = 0 ->
  (0 <= n -> Z.of_nat (nrows df) = n * (1440 `div` step))
  /\ (forall (i : nat) r r',
        iloc df i = Some r ->
        iloc df (i + Z.to_nat (1440 `div` step)) = Some r' ->
        timestamp r' = timestamp r + NS_PER_DAY
        /\ hour_of_day r' = hour_of_day r
        /\ day_of_week r' = (day_of_week r + 1) `mod` 7).
Proof.
  intros Hdf Hstep Hdiv.
  assert (1440 = step * (1440 `div` step)) as Hday.
  { pose proof (Z.div_mod 1440 step). lia. }
  assert (0 <= 1440 `div` step) as Hper by (apply Z.div_pos; lia).
  split.
  - intros Hn. rewrite (nrows_generate _ _ _ _ Hdf).
    rewrite Z2Nat.id by (apply Z.div_pos; lia).
    rewrite Z.divide_div_mul_exact; [done|lia|].
    by apply Z.mod_divide; [lia|].
  - destruct (generate_Ok_inv _ _ _ _ Hdf) as (start & _ & _ & _ & ->).
    intros i r r' (t & Ht & ->)%iloc_table_over (t' & Ht' & ->)%iloc_table_over.
    simpl.
    apply lookup_regular_range in Ht as [-> _].
    apply lookup_regular_range in Ht' as [-> _].
    set (t := start + Z.of_nat i * (step * NS_PER_MINUTE)).
    assert (start + Z.of_nat (i + Z.to_nat (1440 `div` step)) * (step * NS_PER_MINUTE)
            = t + NS_PER_DAY) as ->.
    { unfold t. rewrite NS_PER_DAY_minutes, Nat2Z.inj_add, Z2Nat.id by done.
      rewrite Hday at 2. ring. }
    split; [done|]. split; [apply hour_next_day | apply dayofweek_next_day].
Qed.

Lemma rows_a_day_apart_witness :
  let df := table_over [1736121600000000000; 1736164800000000000;
                        1736208000000000000; 1736251200000000000] in
  (0 <= 2 -> Z.of_nat (nrows df) = 2 * (1440 `div` 720))
  /\ (forall (i : nat) r r',
        iloc df i = Some r ->
        iloc df (i + Z.to_nat (1440 `div` 720)) = Some r' ->
        timestamp r' = timestamp r + NS_PER_DAY
        /\ hour_of_day r' = hour_of_day r
        /\ day_of_week r' = (day_of_week r + 1) `mod` 7).
Proof.
  apply (rows_a_day_apart "2025-01-06 00:00:00" 2 720);
    [vm_compute; reflexivity | lia | reflexivity].
Defined.

(** ** When the peak price applies, and when the function returns *)

(** X8. A row carries the peak price exactly when its day of the week is
    Monday to Friday and its hour is from 14 to 21: the peak price is never
    charged on a weekend nor before 14:00 or from 22:00 on. *)
Theorem peak_exactly s n step df (i : nat) r :
  generate_tnb_tou_data s n step = Ok df ->
  iloc df i = Some r ->
  price r = PRICE_PEAK
  <-> 0 <= day_of_week r <= 4 /\ 14 <= hour_of_day r <= 21.
Proof.
  intros Hdf Hr.
  destruct (generate_row _ _ _ _ _ _ Hdf Hr) as (_ & -> & Hd & Hh).
  rewrite <- Hd, <- Hh.
  pose proof (dayofweek_range (timestamp r)) as Hdr. rewrite <- Hd in Hdr.
  split.
  - intros Hp. destruct (Z.le_gt_cases 5 (day_of_week r)) as [Hwe|Hwd].
    { rewrite tariff_weekend in Hp by done. by apply prices_differ in Hp. }
    split; [lia|].
    destruct (decide (14 <= hour_of_day r < 22)) as [?|Hout]; [lia|].
    rewrite tariff_off_peak in Hp by (done || lia). by apply prices_differ in Hp.
  - intros [Hwd Hpk]. apply tariff_peak; lia.
Qed.

Lemma peak_exactly_witness :
  let r := {| timestamp := 1736179200000000000; price := PRICE_PEAK;
              day_of_week := 0; hour_of_day := 16 |} in
  price r = PRICE_PEAK
  <-> 0 <= day_of_week r <= 4 /\ 14 <= hour_of_day r <= 21.
Proof.
  eapply (peak_exactly "2025-01-06 00:00:00" 1 240 _ 4%nat).
  - vm_compute. reflexivity.
  - vm_compute. reflexivity.
Defined.

(** X9. For a start date from 1970 on, a positive number of days and a
    positive step that is itself a representable duration, the function
    returns a table (of [num_days * 1440 // time_step_minutes] rows) as soon
    as the start date plus [num_days] days is a representable timestamp. The
    script's own run, thirty days at the default step, is such a call. *)
Theorem returns_within_range s start n step :
  to_datetime s = Ok start ->
  0 <= start -> 0 < n -> 0 < step ->
  step * NS_PER_MINUTE <= I64_MAX ->
  start + n * NS_PER_DAY <= I64_MAX ->
  exists df, generate_tnb_tou_data s n step = Ok df
             /\ Z.of_nat (nrows df) = (n * 1440) `div` step.
Proof.
  intros Hs Hstart Hn Hstep Hstepmax Hend.
  assert (0 < NS_PER_DAY) as Hday by reflexivity.
  pose proof NS_PER_MINUTE_pos as Hmin.
  assert (0 < I64_MAX) as Hmax by reflexivity.
  assert (no_overflow start n step = true) as Hno.
  { unfold no_overflow, in_bounds.
    repeat (apply andb_true_intro; split); apply Z.leb_le; nia. }
  eexists. split; [apply (generate_Ok _ _ _ _ Hs Hno); lia|].
  rewrite nrows_table_over, length_regular_range, steps_to_end by lia.
  apply Z2Nat.id. apply Z.div_pos; lia.
Qed.

Lemma returns_within_range_witness :
  exists df, price_data_30_days = Ok df /\ Z.of_nat (nrows df) = 2880.
Proof.
  apply (returns_within_range "2025-01-06 00:00:00" 1736121600000000000
           NUM_DAYS_FOR_TRAINING default_time_step_minutes);
    [reflexivity | lia | reflexivity | reflexivity
     | vm_compute; discriminate | vm_compute; discriminate].
Defined.
